(** * Verification of [src/evaluate.py]

    A shallow embedding of the evaluation harness: latency instrumentation,
    the custom field evaluator, model configuration, the metric registry
    loop of [run_evaluation] and the result materialisation, followed by the
    properties of the specification stated over it. *)

From Stdlib Require Import Floats ZArith.
From stdpp Require Import gmap strings list fin_maps.

Open Scope string_scope.
Set Warnings "-register-all".

(** ** Python values and exceptions *)

(** The JSON-like values that flow through dataset rows, target outputs and
    scores.  Floats are IEEE binary64, as Python's [float]. *)
Inductive value :=
| VNone
| VBool (b : bool)
| VInt (n : Z)
| VFloat (f : float)
| VStr (s : string)
| VList (l : list value).

(** A [dict] with string keys. *)
Abbreviation pydict := (gmap string value).

Inductive exn :=
| ValueError (msg : string)
| TypeError (msg : string)
| OSError (msg : string)
| Exception (msg : string).

(** ** Callables *)

(** [time.time()] is an oracle: [now k] is the k-th reading, [ticks] counts
    the readings taken so far. *)
Record clock := Clock { now : nat → float; ticks : nat }.


(** The target is an opaque Python function that may take time and may
    raise; [Partial_latency_wrapper c] is [partial(latency_wrapper, c)]. *)
Inductive callable :=
| Func (f : list value → pydict → clock → (exn + pydict) * clock)
| Partial_latency_wrapper (completion_func : callable).

(** The state of a [CustomFieldEvaluator] object. *)
Record CustomFieldEvaluator := { metric_name : string }.

(** ** Model configuration *)

(** [AzureOpenAIModelConfiguration(azure_endpoint=..., api_key=...,
    azure_deployment=...)]; the first two come from [os.environ.get] and
    [os.getenv], which return [None] for an unset variable. *)
Record AzureOpenAIModelConfiguration := {
  azure_endpoint : option string;
  api_key : option string;
  azure_deployment : string
}.

(** ** Evaluators and the arguments passed to [evaluate] *)

(** The evaluator objects the registry constructs.  The first seven are
    classes of the evaluation library, built from the model configuration;
    the last one is the class defined in this file. *)
Inductive evaluator :=
| CoherenceEvaluator (model_config : AzureOpenAIModelConfiguration)
| F1ScoreEvaluator (model_config : AzureOpenAIModelConfiguration)
| FluencyEvaluator (model_config : AzureOpenAIModelConfiguration)
| GroundednessEvaluator (model_config : AzureOpenAIModelConfiguration)
| RelevanceEvaluator (model_config : AzureOpenAIModelConfiguration)
| SimilarityEvaluator (model_config : AzureOpenAIModelConfiguration)
| QAEvaluator (model_config : AzureOpenAIModelConfiguration)
| Custom (e : CustomFieldEvaluator).

(** The keyword arguments of one [evaluate(...)] call.  The two dicts are
    modelled by their contents (key to value); the order in which their
    keys were inserted is not represented. *)
Record evaluate_args := {
  target : callable;
  evaluation_name : string;
  evaluators : gmap string evaluator;
  evaluator_config : gmap string (gmap string string);
  data : string
}.

(** What [evaluate] returns: a dict with the keys [rows], [metrics] and
    [studio_url]; [rows] is read with [.get], so it may be absent. *)
Record EvaluateResult := {
  rows : option (list pydict);
  metrics : pydict;
  studio_url : option string
}.

(** ** The world the script runs in *)

Inductive level := INFO | WARNING.

Record world := World {
  environ : gmap string string;          (* os.environ *)
  timer : clock;                         (* behind time.time() *)
  log : list (level * string);           (* logging records, oldest first *)
  invocations : list (list value * pydict); (* target calls, oldest first *)
  evaluations : list evaluate_args;      (* evaluate(...) calls, oldest first *)
  files : gmap string (list (list (string * value))); (* JSON-lines files written *)
  readonly : gset string                 (* paths that cannot be opened for writing *)
}.

Definition set_timer (c : clock) (w : world) : world :=
  World (environ w) c (log w) (invocations w) (evaluations w) (files w) (readonly w).
Definition add_log (r : level * string) (w : world) : world :=
  World (environ w) (timer w) (log w ++ [r]) (invocations w) (evaluations w) (files w) (readonly w).
Definition add_invocation (a : list value * pydict) (w : world) : world :=
  World (environ w) (timer w) (log w) (invocations w ++ [a]) (evaluations w) (files w) (readonly w).
Definition add_evaluation (a : evaluate_args) (w : world) : world :=
  World (environ w) (timer w) (log w) (invocations w) (evaluations w ++ [a]) (files w) (readonly w).
Definition set_files (fs : gmap string (list (list (string * value)))) (w : world) : world :=
  World (environ w) (timer w) (log w) (invocations w) (evaluations w) fs (readonly w).

(** ** A state and exception monad *)

Definition M (A : Type) : Type := world → (exn + A) * world.

Definition ret {A} (a : A) : M A := λ w, (inr a, w).
Definition raise {A} (e : exn) : M A := λ w, (inl e, w).
Definition bind {A B} (m : M A) (k : A → M B) : M B :=
  λ w, match m w with
       | (inl e, w') => (inl e, w')
       | (inr a, w') => k a w'
       end.

#[global] Instance M_ret : MRet M := @ret.
#[global] Instance M_bind : MBind M := λ A B k m, bind m k.

(** [time.time()] *)
Definition time_time : M float :=
  λ w, let c := timer w in
       (inr (now c (ticks c)), set_timer (Clock (now c) (S (ticks c))) w).

Definition logging_warning (msg : string) : M unit :=
  λ w, (inr tt, add_log (WARNING, msg) w).
Definition logging_info (msg : string) : M unit :=
  λ w, (inr tt, add_log (INFO, msg) w).

(** ** Calling the target *)

(** Invoking an opaque function: the call is recorded, then it runs. *)
Definition invoke (f : list value → pydict → clock → (exn + pydict) * clock)
    (args : list value) (kwargs : pydict) : M pydict :=
  λ w, let w1 := add_invocation (args, kwargs) w in
       let '(r, c) := f args kwargs (timer w1) in
       (r, set_timer c w1).

(** [{"latency": latency, **result}]: a later key of a dict display
    replaces an earlier one, so the entries of [result] win. *)
Definition with_latency (latency : float) (result : pydict) : pydict :=
  result ∪ {[ "latency" := VFloat latency ]}.

(** The body of [latency_wrapper], given how to call [completion_func]. *)
Definition latency_wrapper_body (completion_func : list value → pydict → M pydict)
    (args : list value) (kwargs : pydict) : M pydict :=
  start_time ← time_time;
  result ← completion_func args kwargs;
  t ← time_time;
  let latency := (t - start_time)%float in
  mret (with_latency latency result).

(** Binding the parameters of [def latency_wrapper(completion_func, *args,
    **kwargs)]: the first positional argument fills [completion_func], so a
    keyword argument of that name is a second value for it and the call
    raises before the body runs. *)
Definition bind_latency_wrapper_parameters {A} (kwargs : pydict) (body : M A) : M A :=
  if decide (is_Some (kwargs !! "completion_func")) then
    raise (TypeError "latency_wrapper() got multiple values for argument 'completion_func'")
  else body.

Fixpoint call (c : callable) (args : list value) (kwargs : pydict) : M pydict :=
  match c with
  | Func f => invoke f args kwargs
  | Partial_latency_wrapper c' =>
      bind_latency_wrapper_parameters kwargs
        (latency_wrapper_body (call c') args kwargs)
  end.

(** [latency_wrapper(completion_func, *args, **kwargs)] *)
Definition latency_wrapper (completion_func : callable)
    (args : list value) (kwargs : pydict) : M pydict :=
  bind_latency_wrapper_parameters kwargs
    (latency_wrapper_body (call completion_func) args kwargs).

(** ** CustomFieldEvaluator *)

(** [__call__(self, *, value, **kwargs)]: [value] is keyword-only and has no
    default; every other keyword is accepted and ignored. *)
Definition CustomFieldEvaluator_required : gset string := {[ "value" ]}.

Definition CustomFieldEvaluator_call (self : CustomFieldEvaluator)
    (kwargs : pydict) : exn + pydict :=
  match kwargs !! "value" with
  | Some value => inr {[ metric_name self := value ]}
  | None =>
      inl (TypeError "__call__() missing 1 required keyword-only argument: 'value'")
  end.

(** ** The metric registry loop of [run_evaluation] *)

(** The three variables the [for] loop updates. *)
Record registry := {
  reg_completion_func : callable;
  reg_evaluators : gmap string evaluator;
  reg_evaluators_config : gmap string (gmap string string)
}.

Definition register (st : registry) (name : string) (ev : evaluator)
    (bindings : gmap string string) : registry :=
  {| reg_completion_func := reg_completion_func st;
     reg_evaluators := <[name := ev]> (reg_evaluators st);
     reg_evaluators_config := <[name := bindings]> (reg_evaluators_config st) |}.

(** Calling a class of the evaluation library: [library_init ev] is the
    exception the construction of [ev] raises, if it raises.  The library
    is not part of this repository. *)
Definition construct (library_init : evaluator → option exn) (ev : evaluator)
    (k : evaluator → registry) : exn + registry :=
  match library_init ev with
  | Some e => inl e
  | None => inr (k ev)
  end.

(** One iteration: the [if]/[elif] chain on [metric_name]. *)
Definition loop_body (library_init : evaluator → option exn)
    (evaluation_model_config : AzureOpenAIModelConfiguration)
    (st : registry) (metric_name : string) : exn + registry :=
  if decide (metric_name = "coherence") then
    construct library_init (CoherenceEvaluator evaluation_model_config) (λ ev,
      register st metric_name ev
        {[ "question" := "${data.chat_input}";
           "answer" := "${target.reply}" ]})
  else if decide (metric_name = "f1score") then
    construct library_init (F1ScoreEvaluator evaluation_model_config) (λ ev,
      register st metric_name ev
        {[ "answer" := "${target.reply}";
           "ground_truth" := "${data.ground_truth}" ]})
  else if decide (metric_name = "fluency") then
    construct library_init (FluencyEvaluator evaluation_model_config) (λ ev,
      register st metric_name ev
        {[ "question" := "${data.chat_input}";
           "answer" := "${target.reply}" ]})
  else if decide (metric_name = "groundedness") then
    construct library_init (GroundednessEvaluator evaluation_model_config) (λ ev,
      register st metric_name ev
        {[ "answer" := "${target.reply}";
           "context" := "${target.context}" ]})
  else if decide (metric_name = "relevance") then
    construct library_init (RelevanceEvaluator evaluation_model_config) (λ ev,
      register st metric_name ev
        {[ "question" := "${data.chat_input}";
           "answer" := "${target.reply}";
           "context" := "${target.context}" ]})
  else if decide (metric_name = "similarity") then
    construct library_init (SimilarityEvaluator evaluation_model_config) (λ ev,
      register st metric_name ev
        {[ "question" := "${data.chat_input}";
           "answer" := "${target.reply}";
           "ground_truth" := "${data.ground_truth}" ]})
  else if decide (metric_name = "qa") then
    construct library_init (QAEvaluator evaluation_model_config) (λ ev,
      register st metric_name ev
        {[ "question" := "${data.chat_input}";
           "answer" := "${target.reply}";
           "context" := "${target.context}";
           "ground_truth" := "${data.ground_truth}" ]})
  else if decide (metric_name = "latency") then
    inr (register
           {| reg_completion_func := Partial_latency_wrapper (reg_completion_func st);
              reg_evaluators := reg_evaluators st;
              reg_evaluators_config := reg_evaluators_config st |}
           metric_name (Custom {| metric_name := "latency" |})
           {[ "latency" := "${target.latency}" ]})
  else
    inl (ValueError ("Unknown metric: " +:+ metric_name)).

(** [for metric_name in metrics: ...]: stops at the first [raise]. *)
Fixpoint for_metrics (library_init : evaluator → option exn)
    (evaluation_model_config : AzureOpenAIModelConfiguration)
    (st : registry) (metrics : list string) : exn + registry :=
  match metrics with
  | [] => inr st
  | metric_name :: rest =>
      match loop_body library_init evaluation_model_config st metric_name with
      | inl e => inl e
      | inr st' => for_metrics library_init evaluation_model_config st' rest
      end
  end.

Definition initial_registry (completion_func : callable) : registry :=
  {| reg_completion_func := completion_func;
     reg_evaluators := ∅;
     reg_evaluators_config := ∅ |}.

(** The names the [if]/[elif] chain knows, and the choices of the
    [--metrics] command-line flag in [main]. *)
Definition registered_metrics : list string :=
  ["coherence"; "f1score"; "fluency"; "groundedness"; "relevance";
   "similarity"; "qa"; "latency"].

Definition cli_metric_choices : list string :=
  ["coherence"; "f1score"; "fluency"; "groundedness"; "relevance";
   "similarity"; "qa"; "chat"; "latency"].

(** Lifting a pure step that may raise. *)
Definition lift {A} (r : exn + A) : M A := λ w, (r, w).

(** ["name" in os.environ], and [os.getenv("name")] (the same as
    [os.environ.get("name")]). *)
Definition os_environ_contains (name : string) : M bool :=
  λ w, (inr (bool_decide (is_Some (environ w !! name))), w).
Definition os_getenv (name : string) : M (option string) :=
  λ w, (inr (environ w !! name), w).

(** ** [get_model_config] *)

Section ModelConfig.
(** The Azure identity library: building the default credential, and
    asking the bearer-token provider of a scope for a token.  Both are
    outside this file and may raise. *)
Variable credential : Type.
Variable DefaultAzureCredential : M credential.
Variable get_bearer_token_provider : credential → string → M string.

Definition get_model_config (evaluation_model : string)
    : M AzureOpenAIModelConfiguration :=
  has_key ← os_environ_contains "AZURE_OPENAI_KEY";
  api_key ← (if has_key : bool then
               logging_warning
                 "Using key-based authentification, instead we recommend using Azure AD authentification instead.";;
               os_getenv "AZURE_OPENAI_KEY"
             else
               logging_info "Using Azure AD authentification [recommended]";;
               credential ← DefaultAzureCredential;
               token ← get_bearer_token_provider credential
                         "https://cognitiveservices.azure.com/.default";
               mret (Some token)) : M (option string);
  endpoint ← os_getenv "AZURE_OPENAI_ENDPOINT";
  mret {| azure_endpoint := endpoint;
          api_key := api_key;
          azure_deployment := evaluation_model |}.
End ModelConfig.

(** ** Result materialisation *)

(** One line of a JSON-lines document: the fields of one JSON object. *)
Abbreviation json_object := (list (string * value)).

(** Modelled from the spec: [pandas.DataFrame], which is not part of this
    repository.  A table whose columns are the union of all fields across
    the rows and which has one table row per input row, in input order; a
    cell is [None] where the row has no such field. *)
Record DataFrame := {
  columns : list string;
  cells : list (list (option value))
}.

(** The union of all fields across the rows. *)
Definition union_of_fields (rows : list pydict) : gset string :=
  ⋃ (dom <$> rows).

(** Modelled from the spec: the constructor [pandas.DataFrame(data)] for a
    list of dicts (section 4.4).  The spec is silent on [data = None] (an
    absent ["rows"] entry); the empty table stands for it here.  Cell
    values are kept as the rows give them: the storage type a column gets
    (an integer stored as the equal float) and the order of the columns
    are not represented. *)
Definition pd_DataFrame (data : option (list pydict)) : DataFrame :=
  match data with
  | None => {| columns := []; cells := [] |}
  | Some rows =>
      let cols := elements (union_of_fields rows) in
      {| columns := cols;
         cells := (λ row : pydict, (λ c, row !! c) <$> cols) <$> rows |}
  end.

Section Materializer.
(** What a float reads back as after it has been printed in JSON (the
    encoder prints a bounded number of decimals and has no literal for
    NaN or the infinities). *)
Variable float_repr : float → value.

Fixpoint json_of_value (v : value) : value :=
  match v with
  | VFloat f => float_repr f
  | VList l => VList (List.map json_of_value l)
  | _ => v
  end.

(** An empty cell is printed as [null]. *)
Definition json_of_cell (c : option value) : value :=
  match c with
  | None => VNone
  | Some v => json_of_value v
  end.

(** Modelled from the spec: [DataFrame.to_json(orient="records",
    lines=True)], which is not part of this repository.  One JSON object
    per table row, in row order, each over all the columns, and nothing
    else in the document. *)
Definition to_json_lines (df : DataFrame) : list json_object :=
  (λ r, zip (columns df) (json_of_cell <$> r)) <$> cells df.

(** Modelled from the spec: [DataFrame.to_json(path_or_buf, ...)], which
    is not part of this repository (section 4.4: writing is optional,
    controlled by the output path; with no path no file is produced).
    With no path the document is returned; with a path it is written
    there and [None] is returned. *)
Definition to_json (df : DataFrame) (path_or_buf : option string)
    : M (option (list json_object)) :=
  match path_or_buf with
  | None => mret (Some (to_json_lines df))
  | Some path => λ w,
      if decide (path ∈ readonly w) then
        (inl (OSError ("cannot open " +:+ path)), w)
      else
        (inr None, set_files (<[path := to_json_lines df]> (files w)) w)
  end.
End Materializer.


(** ** [run_evaluation] *)

Section RunEvaluation.
(** The constructors of the library's evaluator classes, which may raise;
    and [promptflow.evals.evaluate.evaluate], the external evaluation
    capability: it loads the dataset, invokes the target and the
    evaluators per row and returns the result object. *)
Variable library_init : evaluator → option exn.
Variable evaluate : evaluate_args → M EvaluateResult.
Variable float_repr : float → value.

(** The call site: the call is recorded, then the library runs. *)
Definition call_evaluate (a : evaluate_args) : M EvaluateResult :=
  λ w, evaluate a (add_evaluation a w).

Definition run_evaluation (completion_func : callable)
    (evaluation_name : string)
    (evaluation_model_config : AzureOpenAIModelConfiguration)
    (evaluation_data_path : string) (metrics : list string)
    (output_path : option string) : M (EvaluateResult * DataFrame) :=
  st ← lift (for_metrics library_init evaluation_model_config
               (initial_registry completion_func) metrics);
  logging_info ("Running evaluation name=" +:+ evaluation_name
                +:+ " on dataset " +:+ evaluation_data_path);;
  result ← call_evaluate
             {| target := reg_completion_func st;
                evaluation_name := evaluation_name;
                evaluators := reg_evaluators st;
                evaluator_config := reg_evaluators_config st;
                data := evaluation_data_path |};
  let tabular_result := pd_DataFrame (rows result) in
  to_json float_repr tabular_result output_path;;
  mret (result, tabular_result).
End RunEvaluation.

(** ** [main] *)

(** The namespace [parser.parse_args()] returns: one attribute per flag. *)
Record Namespace := {
  args_evaluation_data_path : string;   (* --evaluation-data-path, required *)
  args_evaluation_name : string;        (* --evaluation-name *)
  args_evaluation_model : string;       (* --evaluation-model *)
  args_metrics : list string            (* --metrics, nargs="+" with choices *)
}.

(** What [pprint] is given. *)
Inductive printed :=
| PStr (s : string)
| PDict (d : pydict)
| PFrame (df : DataFrame).

(** [f"{x}"] for an optional string: [None] prints as the word None. *)
Definition format_optional (x : option string) : string :=
  match x with
  | Some s => s
  | None => "None"
  end.

Section Main.
(** The identity library and the evaluation capability, as above; the flow
    entry point imported from [copilot_sdk_flow.entry]; and how a namespace
    prints inside an f-string. *)
Variable credential : Type.
Variable DefaultAzureCredential : M credential.
Variable get_bearer_token_provider : credential → string → M string.
Variable library_init : evaluator → option exn.
Variable evaluate : evaluate_args → M EvaluateResult.
Variable float_repr : float → value.
Variable flow_entry_copilot_assistants : callable.
Variable repr_Namespace : Namespace → string.

(** [main()], from the point where [parser.parse_args()] has returned
    [args].  The logging configuration calls only set levels and formats.
    The values handed to [pprint] are returned, in order. *)
Definition main (args : Namespace) : M (list printed) :=
  logging_info ("Running script with arguments: " +:+ repr_Namespace args);;
  eval_model_config ← get_model_config credential DefaultAzureCredential
                         get_bearer_token_provider (args_evaluation_model args);
  r ← run_evaluation library_init evaluate float_repr
         flow_entry_copilot_assistants
         (args_evaluation_name args)
         eval_model_config
         (args_evaluation_data_path args)
         (args_metrics args)
         None;
  let '(result, tabular_result) := r in
  mret [ PStr "-----Summarized Metrics-----";
         PDict (metrics result);
         PStr "-----Tabular Result-----";
         PFrame tabular_result;
         PStr ("View evaluation results in AI Studio: "
               +:+ format_optional (studio_url result)) ].
End Main.

(** ** Notions used in the statements *)

(** What [run_evaluation] hands to [evaluate] once the loop is done, and
    what it does with the result. *)
Definition evaluate_call (st : registry) (evaluation_name data_path : string)
    : evaluate_args :=
  {| target := reg_completion_func st;
     evaluation_name := evaluation_name;
     evaluators := reg_evaluators st;
     evaluator_config := reg_evaluators_config st;
     data := data_path |}.

Definition running_message (evaluation_name data_path : string) : level * string :=
  (INFO, "Running evaluation name=" +:+ evaluation_name
         +:+ " on dataset " +:+ data_path).

Definition materialise (float_repr : float → value) (output_path : option string)
    (result : EvaluateResult)
    : M (EvaluateResult * DataFrame) :=
  to_json float_repr (pd_DataFrame (rows result)) output_path;;
  mret (result, pd_DataFrame (rows result)).

(** How often ["latency"] occurs in the requested list. *)
Definition latency_requests (metrics : list string) : nat :=
  count_occ String.string_dec metrics "latency".

(** The binding tables as the specification lists them (section 4.2), to
    compare with the ones the loop builds. *)
Definition spec_binding_tables : gmap string (gmap string string) :=
  {[ "coherence" := {[ "question" := "${data.chat_input}"; "answer" := "${target.reply}" ]};
     "fluency" := {[ "question" := "${data.chat_input}"; "answer" := "${target.reply}" ]};
     "f1score" := {[ "answer" := "${target.reply}"; "ground_truth" := "${data.ground_truth}" ]};
     "groundedness" := {[ "answer" := "${target.reply}"; "context" := "${target.context}" ]};
     "relevance" := {[ "question" := "${data.chat_input}"; "answer" := "${target.reply}";
                       "context" := "${target.context}" ]};
     "similarity" := {[ "question" := "${data.chat_input}"; "answer" := "${target.reply}";
                        "ground_truth" := "${data.ground_truth}" ]};
     "qa" := {[ "question" := "${data.chat_input}"; "answer" := "${target.reply}";
                "context" := "${target.context}"; "ground_truth" := "${data.ground_truth}" ]};
     "latency" := {[ "latency" := "${target.latency}" ]} ]}.

(** Modelled from the spec: the keyword arguments required by the seven
    evaluators of the evaluation library, whose code is not in this
    repository (section 4.2 lists them).  Those of [CustomFieldEvaluator]
    are read off its [__call__]. *)
Definition required_arguments (ev : evaluator) : gset string :=
  match ev with
  | CoherenceEvaluator _ => {[ "question"; "answer" ]}
  | F1ScoreEvaluator _ => {[ "answer"; "ground_truth" ]}
  | FluencyEvaluator _ => {[ "question"; "answer" ]}
  | GroundednessEvaluator _ => {[ "answer"; "context" ]}
  | RelevanceEvaluator _ => {[ "question"; "answer"; "context" ]}
  | SimilarityEvaluator _ => {[ "question"; "answer"; "ground_truth" ]}
  | QAEvaluator _ => {[ "question"; "answer"; "context"; "ground_truth" ]}
  | Custom _ => CustomFieldEvaluator_required
  end.

(** What one iteration adds under its metric name. *)
Definition entry_ok (m : string) (ev : evaluator) (t : gmap string string) : Prop :=
  spec_binding_tables !! m = Some t
  ∧ (m ≠ "latency" → dom t = required_arguments ev)
  ∧ (m = "latency" → ev = Custom {| metric_name := "latency" |}).

(** Every entry of the two dicts was put there by some iteration. *)
Definition entries_ok (st : registry) : Prop :=
  ∀ m, match reg_evaluators st !! m, reg_evaluators_config st !! m with
       | Some ev, Some t => entry_ok m ev t
       | None, None => True
       | _, _ => False
       end.

(** The two log records of [get_model_config]. *)
Definition key_warning : level * string :=
  (WARNING,
   "Using key-based authentification, instead we recommend using Azure AD authentification instead.").
Definition aad_notice : level * string :=
  (INFO, "Using Azure AD authentification [recommended]").

(** A table row read as a mapping: its non-empty cells under their column
    names. *)
Definition row_of_cells (cols : list string) (r : list (option value)) : pydict :=
  list_to_map (omap (λ p : string * option value, (p.1,.) <$> p.2) (zip cols r)).

(** The branches of the [if]/[elif] chain as a table: the evaluator and
    the bindings each registered name gets. *)
Definition registry_entries (cfg : AzureOpenAIModelConfiguration)
    : gmap string (evaluator * gmap string string) :=
  {[ "coherence" := (CoherenceEvaluator cfg,
       {[ "question" := "${data.chat_input}"; "answer" := "${target.reply}" ]});
     "f1score" := (F1ScoreEvaluator cfg,
       {[ "answer" := "${target.reply}"; "ground_truth" := "${data.ground_truth}" ]});
     "fluency" := (FluencyEvaluator cfg,
       {[ "question" := "${data.chat_input}"; "answer" := "${target.reply}" ]});
     "groundedness" := (GroundednessEvaluator cfg,
       {[ "answer" := "${target.reply}"; "context" := "${target.context}" ]});
     "relevance" := (RelevanceEvaluator cfg,
       {[ "question" := "${data.chat_input}"; "answer" := "${target.reply}";
          "context" := "${target.context}" ]});
     "similarity" := (SimilarityEvaluator cfg,
       {[ "question" := "${data.chat_input}"; "answer" := "${target.reply}";
          "ground_truth" := "${data.ground_truth}" ]});
     "qa" := (QAEvaluator cfg,
       {[ "question" := "${data.chat_input}"; "answer" := "${target.reply}";
          "context" := "${target.context}"; "ground_truth" := "${data.ground_truth}" ]});
     "latency" := (Custom {| metric_name := "latency" |},
       {[ "latency" := "${target.latency}" ]}) ]}.

(** The exception, if any, that building the evaluator of a registered
    name raises: the library classes are called, [CustomFieldEvaluator] is
    the class of this file and its [__init__] only stores the name. *)
Definition construction_error (library_init : evaluator → option exn)
    (ev : evaluator) : option exn :=
  match ev with
  | Custom _ => None
  | _ => library_init ev
  end.

(** A name the loop can register: it is in the table and building its
    evaluator does not raise. *)
Definition constructs (library_init : evaluator → option exn)
    (cfg : AzureOpenAIModelConfiguration) (m : string) : Prop :=
  ∃ ev t, registry_entries cfg !! m = Some (ev, t)
          ∧ construction_error library_init ev = None.


(** The latency branch wraps the target before registering. *)
Definition wrap_if_latency (m : string) (st : registry) : registry :=
  if decide (m = "latency") then
    {| reg_completion_func := Partial_latency_wrapper (reg_completion_func st);
       reg_evaluators := reg_evaluators st;
       reg_evaluators_config := reg_evaluators_config st |}
  else st.

(** ** Sample inputs *)

(** A library in which every evaluator class but [F1ScoreEvaluator] accepts
    the model configuration; [F1ScoreEvaluator] takes no argument, so the
    call of line 112 raises. *)
Definition sample_init (ev : evaluator) : option exn :=
  match ev with
  | F1ScoreEvaluator _ =>
      Some (TypeError "F1ScoreEvaluator.__init__() takes 1 positional argument but 2 were given")
  | _ => None
  end.

Definition w0 : world :=
  {| environ := ∅;
     timer := Clock (λ k, PrimFloat.of_uint63 (Uint63.of_nat k)) 0;
     log := []; invocations := []; evaluations := [];
     files := ∅; readonly := ∅ |}.

(** A target that answers "Hello" and lets one clock reading pass. *)
Definition hello_target : callable :=
  Func (λ _ _ c, (inr {[ "reply" := VStr "Hello" ]}, Clock (now c) (S (ticks c)))).

(** An evaluation capability that invokes the target once per row of a
    fixed dataset and reports each row joined with the target's output. *)
Definition rowwise_evaluate (dataset : list pydict) : evaluate_args → M EvaluateResult :=
  λ a,
    rows ← (fix go (l : list pydict) : M (list pydict) :=
              match l with
              | [] => mret []
              | row :: l' =>
                  out ← call (target a) [] row;
                  rest ← go l';
                  mret ((out ∪ row) :: rest)
              end) dataset;
    mret {| rows := Some rows; metrics := ∅; studio_url := None |}.

Definition two_rows : list pydict :=
  [ {[ "chat_input" := VStr "Hi" ]}; {[ "chat_input" := VStr "Bye" ]} ].

Definition sample_config : AzureOpenAIModelConfiguration :=
  {| azure_endpoint := None; api_key := Some "k"; azure_deployment := "gpt-35-turbo" |}.

Definition keyed_world : world :=
  {| environ := {[ "AZURE_OPENAI_KEY" := "secret";
                   "AZURE_OPENAI_ENDPOINT" := "https://example.openai.azure.com" ]};
     timer := timer w0; log := []; invocations := []; evaluations := [];
     files := ∅; readonly := ∅ |}.

Definition latency_run_result : EvaluateResult :=
  {| rows := Some [ {[ "chat_input" := VStr "Hi"; "reply" := VStr "Hello";
                       "latency" := VFloat 2 ]};
                    {[ "chat_input" := VStr "Bye"; "reply" := VStr "Hello";
                       "latency" := VFloat 2 ]} ];
     metrics := ∅;
     studio_url := None |}.

(** The run of the two-row dataset with the latency metric and no output
    path, and what it returns. *)
Abbreviation latency_run :=
  (run_evaluation sample_init (rowwise_evaluate two_rows) VFloat hello_target
     "eval-sdk-dev" sample_config "data.jsonl" ["latency"] None w0).

(** The same run with an output path. *)
Abbreviation latency_run_to_file :=
  (run_evaluation sample_init (rowwise_evaluate two_rows) VFloat hello_target
     "eval-sdk-dev" sample_config "data.jsonl" ["latency"] (Some "out.jsonl") w0).

(** A target that raises. *)
Definition failing_target : callable :=
  Func (λ _ _ c, (inl (Exception "completion failed"), Clock (now c) (S (ticks c)))).

(** An evaluation capability that is down. *)
Definition failing_evaluate : evaluate_args → M EvaluateResult :=
  λ _, raise (Exception "evaluation service unavailable").


Definition latency_args : Namespace :=
  {| args_evaluation_data_path := "data.jsonl";
     args_evaluation_name := "eval-sdk-dev";
     args_evaluation_model := "gpt-35-turbo";
     args_metrics := ["latency"] |}.

(** A stand-in for how [argparse] prints a namespace. *)
Definition sample_repr : Namespace → string := λ _, "Namespace(...)".

(** The script run on [latency_args] in a world without an API key, with a
    token provider that answers. *)
Abbreviation latency_main :=
  (main unit (mret ()) (λ _ _, mret "token") sample_init (rowwise_evaluate two_rows) VFloat
     hello_target sample_repr latency_args w0).

(** * Properties *)

(** ** Unfolding the monad *)

Ltac unfold_M :=
  unfold mbind, M_bind, bind, mret, M_ret, ret, raise, lift,
    logging_info, logging_warning, os_environ_contains, os_getenv in *.

Lemma bind_inr {A B} (m : M A) (k : A → M B) w a w' :
  m w = (inr a, w') → (m ≫= k) w = k a w'.
Proof. intros H. unfold_M. by rewrite H. Qed.

Lemma bind_inl {A B} (m : M A) (k : A → M B) w e w' :
  m w = (inl e, w') → (m ≫= k) w = (inl e, w').
Proof. intros H. unfold_M. by rewrite H. Qed.

Lemma bind_inv {A B} (m : M A) (k : A → M B) w b w' :
  (m ≫= k) w = (inr b, w') →
  ∃ a w1, m w = (inr a, w1) ∧ k a w1 = (inr b, w').
Proof.
  unfold_M. destruct (m w) as [[e|a] w1]; [discriminate|]. eauto.
Qed.

(** ** Latency instrumentation *)

Lemma with_latency_keeps (l : float) (r : pydict) k v :
  r !! k = Some v → with_latency l r !! k = Some v.
Proof. intros H. unfold with_latency. by apply lookup_union_Some_l. Qed.

Lemma with_latency_other (l : float) (r : pydict) k :
  k ≠ "latency" → with_latency l r !! k = r !! k.
Proof.
  intros H. unfold with_latency. rewrite lookup_union.
  rewrite lookup_singleton_ne by done. by destruct (r !! k).
Qed.

Lemma with_latency_fresh (l : float) (r : pydict) :
  r !! "latency" = None → with_latency l r = <["latency" := VFloat l]> r.
Proof.
  intros H. unfold with_latency. rewrite insert_union_singleton_r by done. done.
Qed.

Lemma with_latency_present (l : float) (r : pydict) :
  is_Some (r !! "latency") → with_latency l r = r.
Proof.
  intros [v Hv]. unfold with_latency. apply map_eq. intros k.
  rewrite lookup_union. destruct (decide (k = "latency")) as [->|Hk].
  - rewrite Hv. by rewrite lookup_singleton_eq.
  - rewrite lookup_singleton_ne by done. by destruct (r !! k).
Qed.

Lemma bind_parameters_ok {A} (kwargs : pydict) (body : M A) :
  kwargs !! "completion_func" = None →
  bind_latency_wrapper_parameters kwargs body = body.
Proof.
  intros H. unfold bind_latency_wrapper_parameters.
  rewrite decide_False; [done|]. rewrite H. by intros [? ?].
Qed.

Lemma bind_parameters_clash {A} (kwargs : pydict) (body : M A) (w : world) :
  is_Some (kwargs !! "completion_func") →
  bind_latency_wrapper_parameters kwargs body w
  = (inl (TypeError "latency_wrapper() got multiple values for argument 'completion_func'"),
     w).
Proof.
  intros H. unfold bind_latency_wrapper_parameters. by rewrite decide_True.
Qed.

Lemma latency_wrapper_eq (f : callable) args kwargs (w w1 : world) (r : pydict) :
  kwargs !! "completion_func" = None →
  call f args kwargs (snd (time_time w)) = (inr r, w1) →
  latency_wrapper f args kwargs w =
    (inr (with_latency
            (now (timer w1) (ticks (timer w1)) - now (timer w) (ticks (timer w)))%float r),
     snd (time_time w1)).
Proof.
  intros Hkw H. unfold latency_wrapper. rewrite bind_parameters_ok by done.
  unfold latency_wrapper_body. unfold_M. cbn in *. by rewrite H.
Qed.

(** C3 (as amended): when [latency_wrapper] is called without a keyword
    argument named [completion_func] and the completion callable returns
    the mapping [r], it returns a mapping that keeps every field of [r]
    with its value; if [r] has no [latency] field the result is [r] with
    exactly one more field, [latency], holding the difference of the two
    clock readings taken around the call; if [r] already has a [latency]
    field, that field keeps the value [r] gave it and the result is [r]
    itself. *)
Theorem latency_wrapper_frame (f : callable) args kwargs (w w1 : world) (r : pydict) :
  kwargs !! "completion_func" = None →
  call f args kwargs (snd (time_time w)) = (inr r, w1) →
  ∃ res,
    latency_wrapper f args kwargs w = (inr res, snd (time_time w1))
    ∧ (∀ k v, r !! k = Some v → res !! k = Some v)
    ∧ (∀ k, k ≠ "latency" → res !! k = r !! k)
    ∧ (r !! "latency" = None →
         res = <["latency" :=
                   VFloat (now (timer w1) (ticks (timer w1))
                           - now (timer w) (ticks (timer w)))%float]> r
         ∧ dom res = {["latency"]} ∪ dom r
         ∧ size res = S (size r))
    ∧ (is_Some (r !! "latency") → res = r).
Proof.
  intros Hkw H. eexists. split; [by apply latency_wrapper_eq|].
  split; [intros k v; apply with_latency_keeps|].
  split; [intros k; apply with_latency_other|].
  split.
  - intros Hnone. rewrite with_latency_fresh by done.
    split; [done|]. split; [by rewrite dom_insert_L|].
    by apply map_size_insert_None.
  - apply with_latency_present.
Qed.

Lemma latency_wrapper_frame_witness :
  ∃ res,
    latency_wrapper hello_target [] ∅ w0
      = (inr res, snd (time_time (snd (call hello_target [] ∅ (snd (time_time w0))))))
    ∧ res !! "reply" = Some (VStr "Hello")
    ∧ res !! "latency" = Some (VFloat 2).
Proof.
  destruct (latency_wrapper_frame hello_target [] ∅ w0
              (snd (call hello_target [] ∅ (snd (time_time w0))))
              {[ "reply" := VStr "Hello" ]} (lookup_empty _) eq_refl)
    as (res & Hrun & Hkeep & _ & Hfresh & _).
  exists res. split; [exact Hrun|]. split.
  - apply Hkeep. reflexivity.
  - destruct (Hfresh eq_refl) as [-> _]. reflexivity.
Defined.

(** C3 (counterexample): a target whose own output already has a [latency]
    field gets that output back unchanged: no field is added, and [latency]
    does not hold the measured time (here 2).  And a call that passes a
    keyword argument named [completion_func], on which the target itself
    returns a mapping, raises [TypeError] without calling the target. *)
Lemma latency_wrapper_keeps_own_latency :
  let r : pydict := {[ "latency" := VStr "n/a"; "reply" := VStr "Hello" ]} in
  let f := Func (λ _ _ c, (inr r, Clock (now c) (S (ticks c)))) in
  (∃ res w',
    latency_wrapper f [] ∅ w0 = (inr res, w')
    ∧ res = r
    ∧ size res = size r
    ∧ (now (timer w') 2 - now (timer w0) 0)%float = 2%float
    ∧ res !! "latency" ≠ Some (VFloat 2))
  ∧ fst (call hello_target [] {[ "completion_func" := VStr "x" ]} w0)
    = inr {[ "reply" := VStr "Hello" ]}
  ∧ latency_wrapper hello_target [] {[ "completion_func" := VStr "x" ]} w0
    = (inl (TypeError "latency_wrapper() got multiple values for argument 'completion_func'"),
       w0).
Proof.
  cbv zeta. split; [|split; reflexivity].
  eexists _, _. split; [reflexivity|].
  split; [vm_compute; reflexivity|]. split; [done|]. split; [reflexivity|].
  vm_compute. discriminate.
Qed.

(** ** The custom field evaluator *)

Lemma loop_body_latency init cfg st :
  loop_body init cfg st "latency"
  = inr (register
           {| reg_completion_func := Partial_latency_wrapper (reg_completion_func st);
              reg_evaluators := reg_evaluators st;
              reg_evaluators_config := reg_evaluators_config st |}
           "latency" (Custom {| metric_name := "latency" |})
           {[ "latency" := "${target.latency}" ]}).
Proof. reflexivity. Qed.

Lemma CustomFieldEvaluator_value (m : string) (v : value) (kwargs : pydict) :
  kwargs !! "value" = Some v →
  CustomFieldEvaluator_call {| metric_name := m |} kwargs = inr {[ m := v ]}.
Proof. intros Hv. unfold CustomFieldEvaluator_call. by rewrite Hv. Qed.

Lemma CustomFieldEvaluator_no_value (m : string) (kwargs : pydict) :
  kwargs !! "value" = None →
  CustomFieldEvaluator_call {| metric_name := m |} kwargs
  = inl (TypeError "__call__() missing 1 required keyword-only argument: 'value'").
Proof. intros Hv. unfold CustomFieldEvaluator_call. by rewrite Hv. Qed.

(** C9 (at the failing input): [CustomFieldEvaluator(m)] called with
    [value=v], whatever other keywords come with it, returns exactly the
    one-entry mapping [{m: v}].  But the run never calls it so: for
    ["latency"] the loop registers this evaluator with the single binding
    [latency], and a call with the bound argument, the target output's
    latency [l] passed as [latency=l], raises [TypeError] instead of
    reporting [l] as the score. *)
Theorem latency_score_needs_value init cfg st (l : value) :
  ∃ st' e t,
    loop_body init cfg st "latency" = inr st'
    ∧ reg_evaluators st' !! "latency" = Some (Custom e)
    ∧ reg_evaluators_config st' !! "latency" = Some t
    ∧ dom t = {[ "latency" ]}
    ∧ (∀ m v (kwargs : pydict),
         kwargs !! "value" = Some v →
         CustomFieldEvaluator_call {| metric_name := m |} kwargs = inr {[ m := v ]})
    ∧ CustomFieldEvaluator_call e {[ "value" := l ]} = inr {[ "latency" := l ]}
    ∧ CustomFieldEvaluator_call e {[ "latency" := l ]}
      = inl (TypeError "__call__() missing 1 required keyword-only argument: 'value'").
Proof.
  eexists _, _, ({[ "latency" := "${target.latency}" ]} : gmap string string).
  split; [apply loop_body_latency|].
  split; [apply lookup_insert_eq|]. split; [apply lookup_insert_eq|].
  split; [apply dom_singleton_L|].
  split; [intros m v kwargs; apply CustomFieldEvaluator_value|].
  split.
  - apply CustomFieldEvaluator_value, lookup_singleton_eq.
  - apply CustomFieldEvaluator_no_value. by apply lookup_singleton_ne.
Qed.

(** ** Metric resolution *)

Lemma loop_body_lookup init cfg st (m : string) :
  loop_body init cfg st m
  = match registry_entries cfg !! m with
    | Some (ev, t) =>
        match construction_error init ev with
        | Some e => inl e
        | None => inr (register (wrap_if_latency m st) m ev t)
        end
    | None => inl (ValueError ("Unknown metric: " +:+ m))
    end.
Proof.
  unfold loop_body.
  repeat (destruct (decide _) as [->|?]; [reflexivity|]).
  unfold registry_entries.
  repeat rewrite lookup_insert_ne by done.
  by rewrite lookup_singleton_ne.
Qed.

Lemma loop_body_unknown init cfg st (m : string) :
  m ∉ registered_metrics →
  loop_body init cfg st m = inl (ValueError ("Unknown metric: " +:+ m)).
Proof.
  unfold registered_metrics. rewrite !not_elem_of_cons.
  intros (?&?&?&?&?&?&?&?&_). unfold loop_body.
  repeat (destruct (decide _); [contradiction|]). done.
Qed.

Lemma registry_entries_registered cfg (m : string) :
  is_Some (registry_entries cfg !! m) → m ∈ registered_metrics.
Proof.
  intros Hsome. destruct (decide (m ∈ registered_metrics)) as [|Hun]; [done|].
  pose proof (loop_body_lookup (λ _, None) cfg (initial_registry (Func (λ _ _ c, (inr ∅, c)))) m)
    as Hl.
  rewrite (loop_body_unknown _ _ _ _ Hun) in Hl.
  destruct Hsome as [[ev t] Hev]. rewrite Hev in Hl.
  by destruct ev.
Qed.

Lemma constructs_registered init cfg (m : string) :
  constructs init cfg m → m ∈ registered_metrics.
Proof.
  intros (ev & t & Hev & _). apply (registry_entries_registered cfg). eauto.
Qed.

Lemma loop_body_constructs init cfg st (m : string) :
  constructs init cfg m → ∃ st', loop_body init cfg st m = inr st'.
Proof.
  intros (ev & t & Hev & Herr). rewrite loop_body_lookup, Hev, Herr. eauto.
Qed.

Lemma loop_body_inr_constructs init cfg st st' (m : string) :
  loop_body init cfg st m = inr st' → constructs init cfg m.
Proof.
  rewrite loop_body_lookup.
  destruct (registry_entries cfg !! m) as [[ev t]|] eqn:Hev; [|discriminate].
  destruct (construction_error init ev) eqn:Herr; [discriminate|].
  intros _. by exists ev, t.
Qed.

(** With an unregistered name in the list the loop raises, whatever the
    constructors do. *)
Lemma for_metrics_rejects init cfg (metrics : list string) :
  (∃ m, m ∈ metrics ∧ m ∉ registered_metrics) →
  ∀ st, ∃ e, for_metrics init cfg st metrics = inl e.
Proof.
  induction metrics as [|m0 rest IH]; intros (m & Hin & Hun) st.
  - by apply elem_of_nil in Hin.
  - cbn. destruct (loop_body init cfg st m0) as [e|st1] eqn:Hbody; [eauto|].
    apply elem_of_cons in Hin as [->|Hin].
    + by rewrite loop_body_unknown in Hbody.
    + apply IH. eauto.
Qed.

Lemma for_metrics_stops_at init cfg st (pre post : list string) (m : string) :
  Forall (constructs init cfg) pre →
  m ∉ registered_metrics →
  for_metrics init cfg st (pre ++ m :: post)
  = inl (ValueError ("Unknown metric: " +:+ m)).
Proof.
  intros Hpre Hun. revert st. induction Hpre as [|k pre Hk _ IH]; intros st; cbn.
  - by rewrite loop_body_unknown.
  - destruct (loop_body_constructs init cfg st k Hk) as [st1 ->]. apply IH.
Qed.

Lemma for_metrics_inr_iff init cfg st (metrics : list string) :
  (∃ st', for_metrics init cfg st metrics = inr st')
  ↔ Forall (constructs init cfg) metrics.
Proof.
  revert st. induction metrics as [|m rest IH]; intros st; cbn.
  - split; [by constructor|eauto].
  - split.
    + intros [st' H].
      destruct (loop_body init cfg st m) as [e|st1] eqn:Hbody; [discriminate|].
      constructor; [by eapply loop_body_inr_constructs|].
      apply (IH st1). eauto.
    + intros [Hm Hrest]%Forall_cons.
      destruct (loop_body_constructs init cfg st m Hm) as [st1 ->].
      by apply IH.
Qed.

Section RunEvaluationFacts.
Variable init : evaluator → option exn.
Variable evaluate : evaluate_args → M EvaluateResult.
Variable float_repr : float → value.

Lemma run_evaluation_resolved cf name cfg path metrics out st w :
  for_metrics init cfg (initial_registry cf) metrics = inr st →
  run_evaluation init evaluate float_repr cf name cfg path metrics out w
  = (evaluate (evaluate_call st name path) ≫= materialise float_repr out)
      (add_evaluation (evaluate_call st name path)
         (add_log (running_message name path) w)).
Proof.
  intros H. unfold run_evaluation, call_evaluate, materialise, evaluate_call.
  unfold_M. by rewrite H.
Qed.

Lemma run_evaluation_rejected cf name cfg path metrics out e w :
  for_metrics init cfg (initial_registry cf) metrics = inl e →
  run_evaluation init evaluate float_repr cf name cfg path metrics out w = (inl e, w).
Proof. intros H. unfold run_evaluation. unfold_M. by rewrite H. Qed.

(** C2 (as amended): a metrics list with a name outside the registered
    set makes [run_evaluation] raise during metric resolution and leaves
    the world as it was, so [evaluate] has not been called, the target has
    not been invoked and nothing has been written.  The exception is
    [ValueError("Unknown metric: ...")] for the first such name when the
    evaluators of all the names before it could be built; otherwise it is
    the exception of the constructor that raised.  ["chat"] is such a name
    although the command line accepts it. *)
Theorem run_evaluation_unknown_metric cf name cfg path metrics out w :
  (∃ m, m ∈ metrics ∧ m ∉ registered_metrics) →
  (∃ e, run_evaluation init evaluate float_repr cf name cfg path metrics out w
        = (inl e, w))
  ∧ (let w' := snd (run_evaluation init evaluate float_repr cf name cfg path metrics out w) in
     evaluations w' = evaluations w
     ∧ invocations w' = invocations w
     ∧ files w' = files w)
  ∧ (∀ (pre : list string) (m : string) (post : list string),
       metrics = (pre ++ m :: post)%list →
       Forall (constructs init cfg) pre →
       m ∉ registered_metrics →
       run_evaluation init evaluate float_repr cf name cfg path metrics out w
       = (inl (ValueError ("Unknown metric: " +:+ m)), w))
  ∧ (∀ (pre : list string) (m : string) (post : list string) e,
       metrics = (pre ++ m :: post)%list →
       Forall (constructs init cfg) pre →
       (∃ ev t, registry_entries cfg !! m = Some (ev, t)
                ∧ construction_error init ev = Some e) →
       run_evaluation init evaluate float_repr cf name cfg path metrics out w
       = (inl e, w))
  ∧ "chat" ∈ cli_metric_choices ∧ "chat" ∉ registered_metrics.
Proof.
  intros H.
  destruct (for_metrics_rejects init cfg metrics H (initial_registry cf)) as [e He].
  pose proof (run_evaluation_rejected cf name cfg path metrics out _ w He) as Hrej.
  split; [eauto|]. split; [by rewrite Hrej|].
  split.
  { intros pre m post -> Hpre Hun. apply run_evaluation_rejected.
    by apply for_metrics_stops_at. }
  split; [|split; compute_done].
  intros pre m post e' -> Hpre (ev & t & Hev & Herr).
  apply run_evaluation_rejected. clear He Hrej H.
  generalize (initial_registry cf). induction Hpre as [|k pre Hk _ IH]; intros st; cbn.
  - by rewrite loop_body_lookup, Hev, Herr.
  - destruct (loop_body_constructs init cfg st k Hk) as [st1 ->]. apply IH.
Qed.

(** C10: with the empty metrics list [run_evaluation] does not raise in
    the loop: it logs, then calls [evaluate] with the original target, no
    evaluators and no bindings, and materialises what comes back. *)
Theorem run_evaluation_empty_metrics cf name cfg path out w :
  let a := {| target := cf; evaluation_name := name; evaluators := ∅;
              evaluator_config := ∅; data := path |} in
  for_metrics init cfg (initial_registry cf) [] = inr (initial_registry cf)
  ∧ run_evaluation init evaluate float_repr cf name cfg path [] out w
    = (evaluate a ≫= materialise float_repr out)
        (add_evaluation a (add_log (running_message name path) w))
  ∧ evaluations (add_evaluation a (add_log (running_message name path) w))
    = (evaluations w ++ [a])%list.
Proof. by cbv zeta. Qed.
End RunEvaluationFacts.

Lemma run_evaluation_unknown_metric_witness :
  (∃ e, run_evaluation sample_init (rowwise_evaluate two_rows) VFloat hello_target
          "eval-sdk-dev" sample_config "data.jsonl" ["coherence"; "chat"] None w0
        = (inl e, w0))
  ∧ run_evaluation sample_init (rowwise_evaluate two_rows) VFloat hello_target
      "eval-sdk-dev" sample_config "data.jsonl" ["coherence"; "chat"] None w0
    = (inl (ValueError ("Unknown metric: " +:+ "chat")), w0).
Proof.
  assert (∃ m : string, m ∈ ["coherence"; "chat"] ∧ m ∉ registered_metrics) as Hin
    by (exists "chat"; split; compute_done).
  destruct (run_evaluation_unknown_metric sample_init (rowwise_evaluate two_rows)
              VFloat hello_target "eval-sdk-dev" sample_config "data.jsonl"
              ["coherence"; "chat"] None w0 Hin)
    as (Hraise & _ & Hfirst & _).
  split; [exact Hraise|].
  apply (Hfirst ["coherence"] "chat" [] eq_refl).
  - repeat constructor. eexists _, _. split; reflexivity.
  - compute_done.
Defined.

(** C2 (counterexample): ["chat"] requested after ["f1score"], with a
    library whose [F1ScoreEvaluator] takes no model configuration.  The
    list has an unregistered name, yet the exception is the [TypeError] of
    the call at line 112, not the unknown-metric error. *)
Lemma run_evaluation_constructor_raises_first :
  "chat" ∈ ["f1score"; "chat"] ∧ ("chat" ∉ registered_metrics)
  ∧ run_evaluation sample_init (rowwise_evaluate two_rows) VFloat hello_target
      "eval-sdk-dev" sample_config "data.jsonl" ["f1score"; "chat"] None w0
    = (inl (TypeError "F1ScoreEvaluator.__init__() takes 1 positional argument but 2 were given"),
       w0)
  ∧ TypeError "F1ScoreEvaluator.__init__() takes 1 positional argument but 2 were given"
    ≠ ValueError ("Unknown metric: " +:+ "chat").
Proof.
  split; [compute_done|]. split; [compute_done|]. split; [reflexivity|discriminate].
Qed.

(** ** Wrapping the target *)

Lemma loop_body_target init cfg st st' (m : string) :
  loop_body init cfg st m = inr st' →
  reg_completion_func st'
  = if decide (m = "latency")
    then Partial_latency_wrapper (reg_completion_func st)
    else reg_completion_func st.
Proof.
  rewrite loop_body_lookup.
  destruct (registry_entries cfg !! m) as [[ev t]|]; [|discriminate].
  destruct (construction_error init ev); [discriminate|].
  intros [= <-]. unfold register, wrap_if_latency. cbn.
  by destruct (decide (m = "latency")).
Qed.

Lemma for_metrics_target init cfg (metrics : list string) :
  ∀ st st',
    for_metrics init cfg st metrics = inr st' →
    reg_completion_func st'
    = Nat.iter (latency_requests metrics) Partial_latency_wrapper
        (reg_completion_func st).
Proof.
  induction metrics as [|m rest IH]; intros st st' H; cbn in H.
  - by injection H as <-.
  - destruct (loop_body init cfg st m) as [e|st1] eqn:Hbody; [discriminate|].
    rewrite (IH _ _ H), (loop_body_target _ _ _ _ _ Hbody).
    unfold latency_requests. cbn [count_occ].
    destruct (String.string_dec m "latency") as [->|Hne].
    + rewrite decide_True by done. by rewrite Nat.iter_succ_r.
    + by rewrite decide_False.
Qed.

Lemma latency_requests_absent (metrics : list string) :
  "latency" ∉ metrics → latency_requests metrics = 0.
Proof.
  intros H. apply count_occ_not_In. by rewrite <- list_elem_of_In.
Qed.

Section TargetWrapping.
Variable init : evaluator → option exn.
Variable evaluate : evaluate_args → M EvaluateResult.
Variable float_repr : float → value.

(** C4 (as amended): when every requested name is registered, the target
    handed to [evaluate] is the original completion function wrapped with
    [latency_wrapper] once per occurrence of ["latency"] in the list,
    wherever the occurrences are: exactly once when the name occurs
    once, and not at all when it does not occur. *)
Theorem run_evaluation_target cf name cfg path metrics out st w :
  for_metrics init cfg (initial_registry cf) metrics = inr st →
  let a := {| target := Nat.iter (latency_requests metrics)
                          Partial_latency_wrapper cf;
              evaluation_name := name;
              evaluators := reg_evaluators st;
              evaluator_config := reg_evaluators_config st;
              data := path |} in
  run_evaluation init evaluate float_repr cf name cfg path metrics out w
  = (evaluate a ≫= materialise float_repr out)
      (add_evaluation a (add_log (running_message name path) w))
  ∧ (latency_requests metrics = 1 → target a = Partial_latency_wrapper cf)
  ∧ ("latency" ∉ metrics → target a = cf).
Proof.
  intros H a. split; [|split].
  - rewrite (run_evaluation_resolved _ _ _ _ _ _ _ _ _ _ _ H).
    unfold evaluate_call. by rewrite (for_metrics_target _ _ _ _ _ H).
  - intros Hone. subst a. cbn. by rewrite Hone.
  - intros Hno. subst a. cbn. by rewrite latency_requests_absent.
Qed.
End TargetWrapping.

Lemma run_evaluation_target_witness :
  ∃ a, target a = Partial_latency_wrapper hello_target
       ∧ run_evaluation sample_init (rowwise_evaluate two_rows) VFloat hello_target
           "eval-sdk-dev" sample_config "data.jsonl" ["qa"; "latency"; "fluency"] None w0
         = (rowwise_evaluate two_rows a ≫= materialise VFloat None)
             (add_evaluation a
                (add_log (running_message "eval-sdk-dev" "data.jsonl") w0)).
Proof.
  eexists. split; [|
    apply (run_evaluation_target sample_init (rowwise_evaluate two_rows) VFloat hello_target
             "eval-sdk-dev" sample_config "data.jsonl" ["qa"; "latency"; "fluency"]
             None _ w0 eq_refl)].
  reflexivity.
Defined.

(** C4 (counterexample): ["latency"] requested twice.  The list contains
    the name, yet the target handed to [evaluate] is wrapped twice, not
    once: each row then reads the clock four times instead of two. *)
Lemma run_evaluation_wraps_per_occurrence :
  let run := run_evaluation sample_init (rowwise_evaluate two_rows) VFloat hello_target
               "eval-sdk-dev" sample_config "data.jsonl" ["latency"; "latency"] None in
  "latency" ∈ ["latency"; "latency"]
  ∧ target <$> evaluations (snd (run w0))
    = [Partial_latency_wrapper (Partial_latency_wrapper hello_target)]
  ∧ Partial_latency_wrapper (Partial_latency_wrapper hello_target)
    ≠ Partial_latency_wrapper hello_target
  ∧ ticks (timer (snd (run w0))) = 10
  ∧ ticks (timer (snd (run_evaluation sample_init (rowwise_evaluate two_rows) VFloat hello_target
                         "eval-sdk-dev" sample_config "data.jsonl" ["latency"] None w0)))
    = 6.
Proof.
  cbv zeta. split; [compute_done|]. split; [reflexivity|].
  split; [discriminate|]. split; reflexivity.
Qed.

(** ** Binding tables *)

Lemma loop_body_entry init cfg st st' (m : string) :
  loop_body init cfg st m = inr st' →
  ∃ ev t,
    reg_evaluators st' = <[m := ev]> (reg_evaluators st)
    ∧ reg_evaluators_config st' = <[m := t]> (reg_evaluators_config st)
    ∧ entry_ok m ev t.
Proof.
  unfold loop_body.
  repeat (destruct (decide _) as [->|?];
          [unfold construct; destruct (init _); [discriminate|];
           intros [= <-]; eexists _, _; split; [reflexivity|];
           split; [reflexivity|]; split; [reflexivity|];
           split; [intros _; reflexivity|intros; done]|]).
  destruct (decide _) as [->|?]; [|done].
  intros [= <-]. eexists _, _. split; [reflexivity|]. split; [reflexivity|].
  split; [reflexivity|]. split; [done|done].
Qed.

Lemma loop_body_entries_ok init cfg st st' (m : string) :
  loop_body init cfg st m = inr st' → entries_ok st →
  entries_ok st' ∧ is_Some (reg_evaluators_config st' !! m)
  ∧ ∀ k, is_Some (reg_evaluators_config st !! k) → is_Some (reg_evaluators_config st' !! k).
Proof.
  intros H Hok. destruct (loop_body_entry _ _ _ _ _ H) as (ev & t & Hev & Hcfg & Hent).
  rewrite Hcfg. split; [|split].
  - intros k. rewrite Hev, Hcfg. destruct (decide (m = k)) as [->|Hne].
    + by rewrite !lookup_insert_eq.
    + rewrite !lookup_insert_ne by done. apply Hok.
  - rewrite lookup_insert_eq. eauto.
  - intros k Hk. destruct (decide (m = k)) as [->|Hne].
    + rewrite lookup_insert_eq. eauto.
    + by rewrite lookup_insert_ne.
Qed.

Lemma for_metrics_entries_ok init cfg (metrics : list string) :
  ∀ st st',
    for_metrics init cfg st metrics = inr st' → entries_ok st →
    entries_ok st'
    ∧ (∀ m, m ∈ metrics → is_Some (reg_evaluators_config st' !! m))
    ∧ (∀ k, is_Some (reg_evaluators_config st !! k) →
            is_Some (reg_evaluators_config st' !! k)).
Proof.
  induction metrics as [|m rest IH]; intros st st' H Hok; cbn in H.
  - injection H as <-. split; [done|]. split; [|done].
    intros m Hm. by apply elem_of_nil in Hm.
  - destruct (loop_body init cfg st m) as [e|st1] eqn:Hbody; [discriminate|].
    destruct (loop_body_entries_ok _ _ _ _ _ Hbody Hok) as (Hok1 & Hm & Hgrow1).
    destruct (IH _ _ H Hok1) as (Hok' & Hin & Hgrow).
    split; [done|]. split; [|by eauto].
    intros k [->|Hk]%elem_of_cons; eauto.
Qed.

Lemma initial_registry_entries_ok cf : entries_ok (initial_registry cf).
Proof. intros m. cbn. by rewrite !lookup_empty. Qed.

(** The tables the loop builds are those of the specification, for every
    requested metric, and the keys of each table but the one of
    ["latency"] are the arguments its evaluator requires. *)
Lemma binding_tables_follow_spec init cfg cf (metrics : list string) st (m : string) :
  for_metrics init cfg (initial_registry cf) metrics = inr st →
  m ∈ metrics →
  reg_evaluators_config st !! m = spec_binding_tables !! m
  ∧ ∃ ev t, reg_evaluators st !! m = Some ev
            ∧ reg_evaluators_config st !! m = Some t
            ∧ (m ≠ "latency" → dom t = required_arguments ev).
Proof.
  intros H Hm.
  destruct (for_metrics_entries_ok _ _ _ _ _ H (initial_registry_entries_ok cf))
    as (Hok & Hin & _).
  specialize (Hok m). destruct (Hin m Hm) as [t Ht]. rewrite Ht in Hok |- *.
  destruct (reg_evaluators st !! m) as [ev|]; [|done].
  destruct Hok as (Hspec & Hdom & _). split; [done|]. eauto.
Qed.

(** C1 (at the failing input): for the request [["latency"]] the loop
    registers [CustomFieldEvaluator("latency")] with the binding table
    [{latency: ${target.latency}}], as the specification lists it; but the
    only key of that table is ["latency"] while the evaluator's [__call__]
    requires the keyword ["value"], so a call that passes exactly the bound
    arguments raises [TypeError]. *)
Theorem latency_binding_misses_value init cfg cf :
  ∃ st t,
    for_metrics init cfg (initial_registry cf) ["latency"] = inr st
    ∧ reg_evaluators st !! "latency" = Some (Custom {| metric_name := "latency" |})
    ∧ reg_evaluators_config st !! "latency" = Some t
    ∧ Some t = spec_binding_tables !! "latency"
    ∧ dom t = {[ "latency" ]}
    ∧ required_arguments (Custom {| metric_name := "latency" |}) = {[ "value" ]}
    ∧ dom t ≠ required_arguments (Custom {| metric_name := "latency" |})
    ∧ (∀ kwargs : pydict,
         dom kwargs = dom t →
         CustomFieldEvaluator_call {| metric_name := "latency" |} kwargs
         = inl (TypeError "__call__() missing 1 required keyword-only argument: 'value'")).
Proof.
  eexists _, ({[ "latency" := "${target.latency}" ]} : gmap string string).
  split; [reflexivity|]. split; [reflexivity|]. split; [reflexivity|].
  split; [reflexivity|]. split; [apply dom_singleton_L|]. split; [reflexivity|].
  split.
  { intros H.
    assert ("latency" ∈ required_arguments (Custom {| metric_name := "latency" |}))
      as Hin by (rewrite <- H, dom_singleton_L; by apply elem_of_singleton).
    cbn in Hin. unfold CustomFieldEvaluator_required in Hin.
    apply elem_of_singleton in Hin. discriminate. }
  intros kwargs Hdom. unfold CustomFieldEvaluator_call.
  destruct (kwargs !! "value") as [v|] eqn:Hv; [|done].
  assert ("value" ∈ dom kwargs) as Hin by (apply elem_of_dom; eauto).
  rewrite Hdom in Hin. apply elem_of_dom in Hin as [x Hx].
  by rewrite lookup_singleton_ne in Hx.
Qed.

(** ** Model configuration *)

Section ModelConfigFacts.
Variable credential : Type.
Variable DefaultAzureCredential : M credential.
Variable get_bearer_token_provider : credential → string → M string.

(** C7: when [AZURE_OPENAI_KEY] is set, the configuration carries that
    key, a warning recommending Azure AD authentication is logged and the
    identity library is not consulted; when it is not set, the
    configuration carries the bearer token obtained for the cognitive
    services scope, and a failure to obtain it is raised. *)
Theorem get_model_config_precedence (evaluation_model : string) (w : world) :
  (is_Some (environ w !! "AZURE_OPENAI_KEY") →
     get_model_config credential DefaultAzureCredential get_bearer_token_provider
       evaluation_model w
     = (inr {| azure_endpoint := environ w !! "AZURE_OPENAI_ENDPOINT";
               api_key := environ w !! "AZURE_OPENAI_KEY";
               azure_deployment := evaluation_model |},
        add_log key_warning w))
  ∧ (environ w !! "AZURE_OPENAI_KEY" = None →
     get_model_config credential DefaultAzureCredential get_bearer_token_provider
       evaluation_model w
     = match DefaultAzureCredential (add_log aad_notice w) with
       | (inl e, w1) => (inl e, w1)
       | (inr c, w1) =>
           match get_bearer_token_provider c
                   "https://cognitiveservices.azure.com/.default" w1 with
           | (inl e, w2) => (inl e, w2)
           | (inr token, w2) =>
               (inr {| azure_endpoint := environ w2 !! "AZURE_OPENAI_ENDPOINT";
                       api_key := Some token;
                       azure_deployment := evaluation_model |}, w2)
           end
       end).
Proof.
  split; intros H; unfold get_model_config; unfold_M.
  - by rewrite bool_decide_eq_true_2.
  - rewrite bool_decide_eq_false_2 by (rewrite H; by intros [? ?]).
    fold aad_notice.
    destruct (DefaultAzureCredential _) as [[e|c] w1]; [done|].
    by destruct (get_bearer_token_provider _ _ _) as [[e|tok] w2].
Qed.
End ModelConfigFacts.

Lemma get_model_config_precedence_witness :
  get_model_config unit (mret ()) (λ _ _, mret "token") "gpt-35-turbo" keyed_world
  = (inr {| azure_endpoint := Some "https://example.openai.azure.com";
            api_key := Some "secret";
            azure_deployment := "gpt-35-turbo" |},
     add_log key_warning keyed_world)
  ∧ get_model_config unit (mret ()) (λ _ _, mret "token") "gpt-35-turbo" w0
    = (inr {| azure_endpoint := None;
              api_key := Some "token";
              azure_deployment := "gpt-35-turbo" |},
       add_log aad_notice w0).
Proof.
  split.
  - apply (proj1 (get_model_config_precedence unit (mret ()) (λ _ _, mret "token")
                    "gpt-35-turbo" keyed_world)).
    by eexists.
  - refine (eq_trans
              (proj2 (get_model_config_precedence unit (mret ()) (λ _ _, mret "token")
                        "gpt-35-turbo" w0) eq_refl) _).
    reflexivity.
Defined.

(** ** The output file *)

Section OutputFacts.
Variable init : evaluator → option exn.
Variable evaluate : evaluate_args → M EvaluateResult.
Variable float_repr : float → value.

(** C8: a run of [run_evaluation] that returns normally returns the
    result object of [evaluate] together with the table built from its
    rows.  With no output path the world is left exactly as [evaluate]
    left it, so no file is produced; with an output path the JSON-lines
    document of the table is the content of the file at that path and
    nothing else changes. *)
Theorem run_evaluation_output cf name cfg path metrics out w res df w' :
  run_evaluation init evaluate float_repr cf name cfg path metrics out w
  = (inr (res, df), w') →
  ∃ st w2,
    for_metrics init cfg (initial_registry cf) metrics = inr st
    ∧ evaluate (evaluate_call st name path)
        (add_evaluation (evaluate_call st name path)
           (add_log (running_message name path) w)) = (inr res, w2)
    ∧ df = pd_DataFrame (rows res)
    ∧ match out with
      | None => w' = w2 ∧ files w' = files w2
      | Some p =>
          w' = set_files (<[p := to_json_lines float_repr df]> (files w2)) w2
          ∧ files w' !! p = Some (to_json_lines float_repr df)
          ∧ ∀ q, q ≠ p → files w' !! q = files w2 !! q
      end.
Proof.
  intros Hrun.
  destruct (for_metrics init cfg (initial_registry cf) metrics) as [e|st] eqn:Hst.
  { rewrite (run_evaluation_rejected _ _ _ _ _ _ _ _ _ _ _ Hst) in Hrun. discriminate. }
  rewrite (run_evaluation_resolved _ _ _ _ _ _ _ _ _ _ _ Hst) in Hrun.
  apply bind_inv in Hrun as (res' & w2 & Hev & Hmat).
  exists st, w2. unfold materialise in Hmat.
  apply bind_inv in Hmat as (doc & w3 & Hjson & Hret).
  unfold_M. injection Hret as <- <- <-.
  split; [done|]. split; [done|]. split; [done|].
  destruct out as [p|]; cbn in Hjson.
  - destruct (decide (p ∈ readonly w2)); [discriminate|].
    injection Hjson as _ <-. split; [done|]. cbn. split.
    + apply lookup_insert_eq.
    + intros q Hq. by apply lookup_insert_ne.
  - unfold_M. by injection Hjson as _ <-.
Qed.
End OutputFacts.

Lemma latency_run_returns :
  latency_run
  = (inr (latency_run_result, pd_DataFrame (rows latency_run_result)),
     snd latency_run).
Proof. vm_compute. reflexivity. Qed.

Lemma latency_run_to_file_returns :
  latency_run_to_file
  = (inr (latency_run_result, pd_DataFrame (rows latency_run_result)),
     snd latency_run_to_file).
Proof. vm_compute. reflexivity. Qed.

Lemma run_evaluation_output_witness :
  (∃ st w2,
     for_metrics sample_init sample_config (initial_registry hello_target) ["latency"] = inr st
     ∧ rowwise_evaluate two_rows (evaluate_call st "eval-sdk-dev" "data.jsonl")
         (add_evaluation (evaluate_call st "eval-sdk-dev" "data.jsonl")
            (add_log (running_message "eval-sdk-dev" "data.jsonl") w0))
       = (inr latency_run_result, w2)
     ∧ pd_DataFrame (rows latency_run_result) = pd_DataFrame (rows latency_run_result)
     ∧ snd latency_run = w2 ∧ files (snd latency_run) = files w2)
  ∧ (∃ st w2,
     for_metrics sample_init sample_config (initial_registry hello_target) ["latency"] = inr st
     ∧ rowwise_evaluate two_rows (evaluate_call st "eval-sdk-dev" "data.jsonl")
         (add_evaluation (evaluate_call st "eval-sdk-dev" "data.jsonl")
            (add_log (running_message "eval-sdk-dev" "data.jsonl") w0))
       = (inr latency_run_result, w2)
     ∧ pd_DataFrame (rows latency_run_result) = pd_DataFrame (rows latency_run_result)
     ∧ snd latency_run_to_file
       = set_files (<["out.jsonl" :=
                        to_json_lines VFloat (pd_DataFrame (rows latency_run_result))]>
                      (files w2)) w2
     ∧ files (snd latency_run_to_file) !! "out.jsonl"
       = Some (to_json_lines VFloat (pd_DataFrame (rows latency_run_result)))
     ∧ ∀ q, q ≠ "out.jsonl" → files (snd latency_run_to_file) !! q = files w2 !! q).
Proof.
  split.
  - exact (run_evaluation_output sample_init (rowwise_evaluate two_rows) VFloat hello_target
             "eval-sdk-dev" sample_config "data.jsonl" ["latency"] None w0
             latency_run_result (pd_DataFrame (rows latency_run_result))
             (snd latency_run) latency_run_returns).
  - exact (run_evaluation_output sample_init (rowwise_evaluate two_rows) VFloat hello_target
             "eval-sdk-dev" sample_config "data.jsonl" ["latency"]
             (Some "out.jsonl") w0
             latency_run_result (pd_DataFrame (rows latency_run_result))
             (snd latency_run_to_file) latency_run_to_file_returns).
Defined.

(** ** Materialisation *)

Lemma row_of_cells_lookup (row : pydict) (cols : list string) (k : string) :
  row_of_cells cols ((λ c, row !! c) <$> cols) !! k
  = if decide (k ∈ cols) then row !! k else None.
Proof.
  unfold row_of_cells. induction cols as [|c cols IH]; cbn.
  - by rewrite lookup_empty.
  - destruct (decide (k = c)) as [->|Hne].
    + rewrite decide_True by (apply elem_of_cons; by left).
      destruct (row !! c) as [v|] eqn:Hc; cbn.
      * by rewrite lookup_insert_eq.
      * rewrite IH. by destruct (decide _).
    + assert ((if decide (k ∈ c :: cols) then row !! k else None)
              = (if decide (k ∈ cols) then row !! k else None)) as ->.
      { destruct (decide (k ∈ cols)) as [Hin|Hnin].
        - rewrite decide_True by (apply elem_of_cons; by right). done.
        - rewrite decide_False; [done|].
          intros [?|?]%elem_of_cons; contradiction. }
      destruct (row !! c) as [v|]; cbn; [|done].
      by rewrite lookup_insert_ne.
Qed.

Lemma elem_of_union_of_fields (rows : list pydict) (row : pydict) (k : string) :
  row ∈ rows → is_Some (row !! k) → k ∈ union_of_fields rows.
Proof.
  intros Hrow Hk. unfold union_of_fields. apply elem_of_union_list.
  exists (dom row). split; [|by apply elem_of_dom].
  apply list_elem_of_fmap. eauto.
Qed.

Lemma row_of_cells_row (rows : list pydict) (row : pydict) :
  row ∈ rows →
  row_of_cells (elements (union_of_fields rows))
    ((λ c, row !! c) <$> elements (union_of_fields rows)) = row.
Proof.
  intros Hrow. apply map_eq. intros k. rewrite row_of_cells_lookup.
  destruct (decide _) as [Hin|Hnin]; [done|].
  destruct (row !! k) as [v|] eqn:Hk; [|done].
  exfalso. apply Hnin. apply elem_of_elements.
  eapply elem_of_union_of_fields; eauto.
Qed.

Section MaterializerFacts.
Variable float_repr : float → value.


Lemma line_contains (row : pydict) (cols : list string) (k : string) v :
  k ∈ cols → row !! k = Some v →
  (k, json_of_value float_repr v)
    ∈ zip cols (json_of_cell float_repr <$> ((λ c, row !! c) <$> cols)).
Proof.
  intros Hin Hk. induction cols as [|c cols IH]; cbn.
  - by apply elem_of_nil in Hin.
  - apply elem_of_cons in Hin as [->|Hin].
    + rewrite Hk. cbn. apply elem_of_cons. by left.
    + apply elem_of_cons. right. by apply IH.
Qed.

(** C6: for a row collection of any length, the table has one row per
    Result Row and the JSON-lines document one line per Result Row, in
    the order of the collection: read as mappings, the table rows are
    the Result Rows themselves, and the i-th line carries every field of
    the i-th Result Row.  Nothing is reordered, dropped or duplicated. *)
Theorem materialisation_keeps_row_order (result_rows : list pydict) :
  let df := pd_DataFrame (Some result_rows) in
  let doc := to_json_lines float_repr df in
  row_of_cells (columns df) <$> cells df = result_rows
  ∧ length (cells df) = length result_rows
  ∧ length doc = length result_rows
  ∧ ∀ i row,
      result_rows !! i = Some row →
      ∃ line, doc !! i = Some line
              ∧ line.*1 = columns df
              ∧ ∀ k v, row !! k = Some v → (k, json_of_value float_repr v) ∈ line.
Proof.
  cbv zeta. unfold to_json_lines. cbn [pd_DataFrame columns cells].
  set (cols := elements (union_of_fields result_rows)).
  split; [|split; [|split]].
  - rewrite <- list_fmap_compose.
    transitivity (id <$> result_rows); [|apply list_fmap_id].
    apply list_fmap_ext. intros i row Hrow. cbn.
    apply row_of_cells_row. by eapply list_elem_of_lookup_2.
  - by rewrite length_fmap.
  - by rewrite !length_fmap.
  - intros i row Hi. eexists. split.
    + rewrite !list_lookup_fmap, Hi. reflexivity.
    + split.
      * apply fst_zip. by rewrite !length_fmap.
      * intros k v Hk. apply line_contains; [|done].
        apply elem_of_elements. eapply elem_of_union_of_fields; [|eauto].
        eapply list_elem_of_lookup_2; eauto.
Qed.
End MaterializerFacts.

Section RoundTrip.
Variable float_repr : float → value.


End RoundTrip.

Section RoundTripNaN.
Variable digits : float → float.

End RoundTripNaN.



(** * Further properties of the code *)

(** ** [latency_wrapper]: errors, invocations, composition *)

Lemma latency_wrapper_body_inl g args kwargs (w w1 : world) e :
  g args kwargs (snd (time_time w)) = (inl e, w1) →
  latency_wrapper_body g args kwargs w = (inl e, w1).
Proof.
  intros H. unfold latency_wrapper_body. unfold_M. cbn in *. by rewrite H.
Qed.

Lemma latency_wrapper_body_inr g args kwargs (w w1 : world) r :
  g args kwargs (snd (time_time w)) = (inr r, w1) →
  latency_wrapper_body g args kwargs w
  = (inr (with_latency
            (now (timer w1) (ticks (timer w1)) - now (timer w) (ticks (timer w)))%float r),
     snd (time_time w1)).
Proof.
  intros H. unfold latency_wrapper_body. unfold_M. cbn in *. by rewrite H.
Qed.

(** X1: when [latency_wrapper] is called without a keyword argument named
    [completion_func] and the completion function raises, it raises the
    same exception and leaves the world as the function left it: no second
    clock reading is taken and no latency is reported. *)
Theorem latency_wrapper_propagates (f : callable) args kwargs (w w1 : world) e :
  kwargs !! "completion_func" = None →
  call f args kwargs (snd (time_time w)) = (inl e, w1) →
  latency_wrapper f args kwargs w = (inl e, w1)
  ∧ ticks (timer (snd (latency_wrapper f args kwargs w))) = ticks (timer w1).
Proof.
  intros Hkw H. unfold latency_wrapper. rewrite bind_parameters_ok by done.
  rewrite (latency_wrapper_body_inl _ _ _ _ _ _ H). done.
Qed.

Lemma latency_wrapper_propagates_witness :
  latency_wrapper failing_target [] ∅ w0
  = (inl (Exception "completion failed"),
     snd (call failing_target [] ∅ (snd (time_time w0))))
  ∧ ticks (timer (snd (latency_wrapper failing_target [] ∅ w0))) = 2.
Proof.
  exact (latency_wrapper_propagates failing_target [] ∅ w0
           (snd (call failing_target [] ∅ (snd (time_time w0))))
           (Exception "completion failed") (lookup_empty _) eq_refl).
Defined.

Lemma invocations_time_time (w : world) :
  invocations (snd (time_time w)) = invocations w.
Proof. reflexivity. Qed.

Lemma wrapped_call_once (n : nat) f args kwargs (w : world) :
  kwargs !! "completion_func" = None →
  invocations (snd (call (Nat.iter n Partial_latency_wrapper (Func f)) args kwargs w))
  = (invocations w ++ [(args, kwargs)])%list.
Proof.
  intros Hkw. revert w. induction n as [|n IH]; intros w.
  - change (Nat.iter 0 Partial_latency_wrapper (Func f)) with (Func f).
    cbn [call]. unfold invoke. cbv zeta.
    by destruct (f args kwargs (timer (add_invocation (args, kwargs) w))).
  - change (Nat.iter (S n) Partial_latency_wrapper (Func f))
      with (Partial_latency_wrapper (Nat.iter n Partial_latency_wrapper (Func f))).
    cbn [call]. rewrite bind_parameters_ok by done.
    destruct (call (Nat.iter n Partial_latency_wrapper (Func f)) args kwargs
                (snd (time_time w))) as [[e|r] w1] eqn:Hcall.
    + rewrite (latency_wrapper_body_inl _ _ _ _ _ _ Hcall). cbn.
      pose proof (IH (snd (time_time w))) as Hinv. by rewrite Hcall in Hinv.
    + rewrite (latency_wrapper_body_inr _ _ _ _ _ _ Hcall). cbn.
      pose proof (IH (snd (time_time w))) as Hinv. by rewrite Hcall in Hinv.
Qed.

(** X2: however many times a function has been wrapped with
    [latency_wrapper], one call of the wrapped callable without a keyword
    argument named [completion_func] invokes the function exactly once,
    with the positional and keyword arguments of the call, whether it
    returns or raises.  With such a keyword argument a wrapped callable
    raises [TypeError] at once: the function is not invoked and the clock
    is not read. *)
Theorem wrapped_call_invokes_once (n : nat) f args kwargs (w : world) :
  (kwargs !! "completion_func" = None →
   invocations (snd (call (Nat.iter n Partial_latency_wrapper (Func f)) args kwargs w))
   = (invocations w ++ [(args, kwargs)])%list)
  ∧ (is_Some (kwargs !! "completion_func") →
     call (Nat.iter (S n) Partial_latency_wrapper (Func f)) args kwargs w
     = (inl (TypeError "latency_wrapper() got multiple values for argument 'completion_func'"),
        w)).
Proof.
  split; [apply wrapped_call_once|].
  intros Hkw.
  change (Nat.iter (S n) Partial_latency_wrapper (Func f))
    with (Partial_latency_wrapper (Nat.iter n Partial_latency_wrapper (Func f))).
  cbn [call]. by apply bind_parameters_clash.
Qed.

Lemma with_latency_has_latency (l : float) (r : pydict) :
  is_Some (with_latency l r !! "latency").
Proof.
  unfold with_latency. rewrite lookup_union.
  rewrite lookup_singleton_eq. destruct (r !! "latency"); cbn; eauto.
Qed.

(** X3: wrapping an already wrapped callable changes nothing in what is
    returned: the outer wrapper finds a [latency] field in the inner
    result and keeps it, so the mapping (and the latency it reports) is
    the one of the inner wrapper; only one more pair of clock readings is
    taken. *)
Theorem double_wrapper_keeps_inner_latency (c : callable) args kwargs
    (w w1 : world) (res : pydict) :
  call (Partial_latency_wrapper c) args kwargs (snd (time_time w)) = (inr res, w1) →
  call (Partial_latency_wrapper (Partial_latency_wrapper c)) args kwargs w
  = (inr res, snd (time_time w1))
  ∧ is_Some (res !! "latency").
Proof.
  intros H.
  assert (kwargs !! "completion_func" = None) as Hkw.
  { destruct (kwargs !! "completion_func") eqn:Hk; [|done].
    cbn [call] in H. rewrite bind_parameters_clash in H by (rewrite Hk; eauto).
    discriminate. }
  assert (is_Some (res !! "latency")) as Hlat.
  { cbn [call] in H. rewrite bind_parameters_ok in H by done.
    unfold latency_wrapper_body in H. unfold_M. cbn in H.
    destruct (call c args kwargs _) as [[e|r] w2]; [discriminate|].
    injection H as <- _. apply with_latency_has_latency. }
  split; [|done].
  change (call (Partial_latency_wrapper (Partial_latency_wrapper c)) args kwargs w)
    with (bind_latency_wrapper_parameters kwargs
            (latency_wrapper_body (call (Partial_latency_wrapper c)) args kwargs) w).
  rewrite bind_parameters_ok by done.
  rewrite (latency_wrapper_body_inr _ _ _ _ _ _ H).
  by rewrite with_latency_present.
Qed.

Lemma hello_wrapped_once :
  call (Partial_latency_wrapper hello_target) [] ∅ (snd (time_time w0))
  = (inr {[ "reply" := VStr "Hello"; "latency" := VFloat 2 ]},
     snd (call (Partial_latency_wrapper hello_target) [] ∅ (snd (time_time w0)))).
Proof. vm_compute. reflexivity. Qed.

Lemma double_wrapper_keeps_inner_latency_witness :
  call (Partial_latency_wrapper (Partial_latency_wrapper hello_target)) [] ∅ w0
  = (inr {[ "reply" := VStr "Hello"; "latency" := VFloat 2 ]},
     snd (time_time
            (snd (call (Partial_latency_wrapper hello_target) [] ∅
                    (snd (time_time w0))))))
  ∧ is_Some (({[ "reply" := VStr "Hello"; "latency" := VFloat 2 ]} : pydict) !! "latency").
Proof.
  exact (double_wrapper_keeps_inner_latency hello_target [] ∅ w0 _ _
           hello_wrapped_once).
Defined.


(** ** The registry loop: when it succeeds, what it builds *)

(** X4: the loop finishes without raising exactly when every requested
    name is one of the registered ones and building its evaluator does not
    raise; the empty request is such a list. *)
Theorem for_metrics_resolves_iff init cfg st (metrics : list string) :
  (∃ st', for_metrics init cfg st metrics = inr st')
  ↔ Forall (constructs init cfg) metrics.
Proof. apply for_metrics_inr_iff. Qed.

(** X5: when the names before the first unregistered name are registered
    and their evaluators can be built, the exception is the [ValueError]
    naming that first unregistered name; names after it are not looked
    at. *)
Theorem for_metrics_first_unknown init cfg st (pre post : list string) (m : string) :
  Forall (constructs init cfg) pre →
  m ∉ registered_metrics →
  for_metrics init cfg st (pre ++ m :: post)
  = inl (ValueError ("Unknown metric: " +:+ m)).
Proof. apply for_metrics_stops_at. Qed.

Lemma for_metrics_first_unknown_witness :
  for_metrics sample_init sample_config (initial_registry hello_target)
    (["qa"; "latency"] ++ "chat" :: ["bleu"; "f1score"])
  = inl (ValueError ("Unknown metric: " +:+ "chat")).
Proof.
  apply (for_metrics_first_unknown sample_init sample_config
           (initial_registry hello_target)
           ["qa"; "latency"] ["bleu"; "f1score"] "chat").
  - repeat constructor; eexists _, _; split; reflexivity.
  - compute_done.
Defined.

Lemma for_metrics_dom init cfg (metrics : list string) :
  ∀ st st',
    for_metrics init cfg st metrics = inr st' →
    dom (reg_evaluators st') = dom (reg_evaluators st) ∪ list_to_set metrics
    ∧ dom (reg_evaluators_config st')
      = dom (reg_evaluators_config st) ∪ list_to_set metrics.
Proof.
  induction metrics as [|m rest IH]; intros st st' H; cbn in H.
  - injection H as <-. cbn. split; set_solver.
  - destruct (loop_body init cfg st m) as [e|st1] eqn:Hbody; [discriminate|].
    destruct (loop_body_entry _ _ _ _ _ Hbody) as (ev & t & Hev & Hcfg & _).
    destruct (IH _ _ H) as [-> ->]. rewrite Hev, Hcfg, !dom_insert_L.
    cbn. split; set_solver.
Qed.

(** X6: after a successful loop the two dicts handed to [evaluate] have the
    same keys, namely the requested names; a name requested twice gives one
    entry. *)
Theorem registry_keys_are_requested_names init cfg cf (metrics : list string) st :
  for_metrics init cfg (initial_registry cf) metrics = inr st →
  dom (reg_evaluators st) = list_to_set metrics
  ∧ dom (reg_evaluators_config st) = list_to_set metrics
  ∧ size (reg_evaluators st) = length (remove_dups metrics).
Proof.
  intros H. destruct (for_metrics_dom _ _ _ _ _ H) as [Hev Hcfg].
  cbn in Hev, Hcfg.
  rewrite dom_empty_L, union_empty_l_L in Hev.
  rewrite dom_empty_L, union_empty_l_L in Hcfg.
  split; [done|]. split; [done|].
  rewrite <- size_dom, Hev.
  assert ((list_to_set metrics : gset string) = list_to_set (remove_dups metrics)) as ->.
  { apply set_eq. intros k. by rewrite !elem_of_list_to_set, elem_of_remove_dups. }
  apply size_list_to_set, NoDup_remove_dups.
Qed.

Lemma registry_keys_are_requested_names_witness :
  ∃ st,
    for_metrics sample_init sample_config (initial_registry hello_target)
      ["qa"; "latency"; "qa"] = inr st
    ∧ dom (reg_evaluators st) = list_to_set ["qa"; "latency"; "qa"]
    ∧ size (reg_evaluators st) = 2.
Proof.
  eexists. split; [reflexivity|].
  destruct (registry_keys_are_requested_names sample_init sample_config hello_target
              ["qa"; "latency"; "qa"] _ eq_refl) as (Hdom & _ & Hsize).
  split; [exact Hdom|exact Hsize].
Defined.

Lemma register_swap (st : registry) (a b : string) ev ev' t t' :
  (a = b → ev = ev' ∧ t = t') →
  register (wrap_if_latency b (register (wrap_if_latency a st) a ev t)) b ev' t'
  = register (wrap_if_latency a (register (wrap_if_latency b st) b ev' t')) a ev t.
Proof.
  intros Hsame. destruct (decide (a = b)) as [->|Hne].
  - by destruct (Hsame eq_refl) as [-> ->].
  - unfold register, wrap_if_latency.
    destruct (decide (a = "latency")), (decide (b = "latency")); cbn;
      f_equal; by apply insert_insert_ne.
Qed.

Lemma loop_body_swap init cfg st st1 st2 (a b : string) :
  loop_body init cfg st a = inr st1 →
  loop_body init cfg st1 b = inr st2 →
  ∃ st1', loop_body init cfg st b = inr st1' ∧ loop_body init cfg st1' a = inr st2.
Proof.
  rewrite !loop_body_lookup.
  destruct (registry_entries cfg !! a) as [[ev t]|] eqn:Ha; [|discriminate].
  destruct (construction_error init ev) eqn:Hea; [discriminate|].
  destruct (registry_entries cfg !! b) as [[ev' t']|] eqn:Hb; [|discriminate].
  destruct (construction_error init ev') eqn:Heb; [discriminate|].
  intros [= <-] [= <-]. eexists. split; [reflexivity|].
  rewrite loop_body_lookup, Ha, Hea. f_equal. symmetry. apply register_swap.
  intros ->. rewrite Ha in Hb. by injection Hb as -> ->.
Qed.

Lemma for_metrics_perm init cfg (metrics1 metrics2 : list string) :
  metrics1 ≡ₚ metrics2 →
  ∀ st st', for_metrics init cfg st metrics1 = inr st' →
            for_metrics init cfg st metrics2 = inr st'.
Proof.
  induction 1 as [|m l1 l2 _ IH|a b l|l1 l2 l3 _ IH12 _ IH23]; intros st st' H.
  - done.
  - cbn in *. destruct (loop_body init cfg st m); [done|]. by apply IH.
  - cbn in *.
    destruct (loop_body init cfg st b) as [e|st1] eqn:Hb; [discriminate|].
    destruct (loop_body init cfg st1 a) as [e|st2] eqn:Ha; [discriminate|].
    destruct (loop_body_swap _ _ _ _ _ _ _ Hb Ha) as (st1' & -> & ->). done.
  - eauto.
Qed.

Section EvaluateFailure.
Variable init : evaluator → option exn.
Variable evaluate : evaluate_args → M EvaluateResult.
Variable float_repr : float → value.

(** X8: when [evaluate] raises, [run_evaluation] raises the same
    exception and stops there: the world is as [evaluate] left it, so no
    table is built and no output file is written, whatever the output
    path. *)
Theorem run_evaluation_evaluate_fails cf name cfg path metrics out st w e w2 :
  for_metrics init cfg (initial_registry cf) metrics = inr st →
  evaluate (evaluate_call st name path)
    (add_evaluation (evaluate_call st name path)
       (add_log (running_message name path) w)) = (inl e, w2) →
  run_evaluation init evaluate float_repr cf name cfg path metrics out w = (inl e, w2).
Proof.
  intros Hst Hev. rewrite (run_evaluation_resolved _ _ _ _ _ _ _ _ _ _ _ Hst).
  by apply bind_inl.
Qed.

End EvaluateFailure.

Lemma run_evaluation_evaluate_fails_witness :
  run_evaluation sample_init failing_evaluate VFloat hello_target
    "eval-sdk-dev" sample_config "data.jsonl" ["qa"] (Some "out.jsonl") w0
  = (inl (Exception "evaluation service unavailable"),
     add_evaluation
       (evaluate_call
          (register (initial_registry hello_target) "qa" (QAEvaluator sample_config)
             {[ "question" := "${data.chat_input}"; "answer" := "${target.reply}";
                "context" := "${target.context}";
                "ground_truth" := "${data.ground_truth}" ]})
          "eval-sdk-dev" "data.jsonl")
       (add_log (running_message "eval-sdk-dev" "data.jsonl") w0)).
Proof.
  exact (run_evaluation_evaluate_fails sample_init failing_evaluate VFloat hello_target
           "eval-sdk-dev" sample_config "data.jsonl" ["qa"] (Some "out.jsonl")
           _ w0 _ _ eq_refl eq_refl).
Defined.


(** ** [main] *)

Lemma cli_choice_registered_or_chat (m : string) :
  m ∈ cli_metric_choices ↔ m ∈ registered_metrics ∨ m = "chat".
Proof.
  unfold cli_metric_choices, registered_metrics.
  rewrite !elem_of_cons, !elem_of_nil. tauto.
Qed.

Section MainFacts.
Variable credential : Type.
Variable DefaultAzureCredential : M credential.
Variable get_bearer_token_provider : credential → string → M string.
Variable init : evaluator → option exn.
Variable evaluate : evaluate_args → M EvaluateResult.
Variable float_repr : float → value.
Variable flow_entry_copilot_assistants : callable.
Variable repr_Namespace : Namespace → string.


(** X11: [main] calls [run_evaluation] without an output path.  When
    [main] returns normally, the model configuration was obtained, every
    name resolved against the flow entry point and [evaluate] returned a
    result; the world is exactly as [evaluate] left it, so the script
    itself has written no file; and what is printed is the result's
    metrics, the table of its rows and its studio URL. *)
Theorem main_writes_no_file (args : Namespace) (w w' : world) (out : list printed) :
  main credential DefaultAzureCredential get_bearer_token_provider init evaluate
    float_repr flow_entry_copilot_assistants repr_Namespace args w
  = (inr out, w') →
  ∃ cfg w1 st res,
    get_model_config credential DefaultAzureCredential get_bearer_token_provider
      (args_evaluation_model args)
      (add_log (INFO, "Running script with arguments: " +:+ repr_Namespace args) w)
    = (inr cfg, w1)
    ∧ for_metrics init cfg (initial_registry flow_entry_copilot_assistants)
        (args_metrics args) = inr st
    ∧ evaluate (evaluate_call st (args_evaluation_name args)
                  (args_evaluation_data_path args))
        (add_evaluation
           (evaluate_call st (args_evaluation_name args)
              (args_evaluation_data_path args))
           (add_log (running_message (args_evaluation_name args)
                       (args_evaluation_data_path args)) w1))
      = (inr res, w')
    ∧ out = [ PStr "-----Summarized Metrics-----";
              PDict (metrics res);
              PStr "-----Tabular Result-----";
              PFrame (pd_DataFrame (rows res));
              PStr ("View evaluation results in AI Studio: "
                    +:+ format_optional (studio_url res)) ].
Proof.
  intros Hmain. unfold main in Hmain.
  apply bind_inv in Hmain as ([] & w0' & Hlog & Hmain).
  unfold_M. injection Hlog as <-.
  apply bind_inv in Hmain as (cfg & w1 & Hcfg & Hmain).
  apply bind_inv in Hmain as ([res df] & w2 & Hrun & Hret).
  unfold_M. injection Hret as <- <-.
  destruct (for_metrics init cfg (initial_registry flow_entry_copilot_assistants)
              (args_metrics args)) as [e|st] eqn:Hst.
  { rewrite (run_evaluation_rejected _ _ _ _ _ _ _ _ _ _ _ Hst) in Hrun. discriminate. }
  rewrite (run_evaluation_resolved _ _ _ _ _ _ _ _ _ _ _ Hst) in Hrun.
  apply bind_inv in Hrun as (res' & w3 & Hev & Hmat).
  unfold materialise in Hmat. cbn in Hmat. unfold_M.
  injection Hmat as <- <- <-.
  exists cfg, w1, st, res'. done.
Qed.
End MainFacts.




Lemma latency_main_returns :
  latency_main
  = (inr [ PStr "-----Summarized Metrics-----";
           PDict (metrics latency_run_result);
           PStr "-----Tabular Result-----";
           PFrame (pd_DataFrame (rows latency_run_result));
           PStr ("View evaluation results in AI Studio: "
                 +:+ format_optional (studio_url latency_run_result)) ],
     snd latency_main).
Proof. vm_compute. reflexivity. Qed.

Lemma main_writes_no_file_witness :
  ∃ cfg w1 st res,
    get_model_config unit (mret ()) (λ _ _, mret "token")
      (args_evaluation_model latency_args)
      (add_log (INFO, "Running script with arguments: " +:+ sample_repr latency_args) w0)
    = (inr cfg, w1)
    ∧ for_metrics sample_init cfg (initial_registry hello_target) (args_metrics latency_args) = inr st
    ∧ rowwise_evaluate two_rows
        (evaluate_call st (args_evaluation_name latency_args)
           (args_evaluation_data_path latency_args))
        (add_evaluation
           (evaluate_call st (args_evaluation_name latency_args)
              (args_evaluation_data_path latency_args))
           (add_log (running_message (args_evaluation_name latency_args)
                       (args_evaluation_data_path latency_args)) w1))
      = (inr res, snd latency_main)
    ∧ [ PStr "-----Summarized Metrics-----";
        PDict (metrics latency_run_result);
        PStr "-----Tabular Result-----";
        PFrame (pd_DataFrame (rows latency_run_result));
        PStr ("View evaluation results in AI Studio: "
              +:+ format_optional (studio_url latency_run_result)) ]
      = [ PStr "-----Summarized Metrics-----";
          PDict (metrics res);
          PStr "-----Tabular Result-----";
          PFrame (pd_DataFrame (rows res));
          PStr ("View evaluation results in AI Studio: "
                +:+ format_optional (studio_url res)) ].
Proof.
  exact (main_writes_no_file unit (mret ()) (λ _ _, mret "token") sample_init
              (rowwise_evaluate two_rows) VFloat hello_target sample_repr
           latency_args w0 _ _ latency_main_returns).
Defined.

(** ** Requesting a name twice *)

Lemma for_metrics_app init cfg st (l1 l2 : list string) :
  for_metrics init cfg st (l1 ++ l2)
  = match for_metrics init cfg st l1 with
    | inl e => inl e
    | inr st1 => for_metrics init cfg st1 l2
    end.
Proof.
  revert st. induction l1 as [|m l1 IH]; intros st; cbn; [done|].
  by destruct (loop_body init cfg st m).
Qed.

Lemma loop_body_again init cfg st st1 (m : string) :
  m ≠ "latency" →
  loop_body init cfg st m = inr st1 →
  loop_body init cfg st1 m = inr st1.
Proof.
  intros Hne. rewrite !loop_body_lookup.
  destruct (registry_entries cfg !! m) as [[ev t]|]; [|discriminate].
  destruct (construction_error init ev); [discriminate|].
  intros [= <-]. f_equal. unfold register, wrap_if_latency.
  rewrite !decide_False by done. cbn. by rewrite !insert_insert_eq.
Qed.

(** X12: requesting again a name other than ["latency"] that the list
    already contains changes nothing: the loop builds the same target,
    evaluators and bindings as without the repetition.  (["latency"] is
    the one name for which a repetition shows, in the target.) *)
Theorem for_metrics_repeated_name init cfg st st' (m : string) (metrics : list string) :
  m ≠ "latency" →
  m ∈ metrics →
  for_metrics init cfg st (m :: metrics) = inr st' →
  for_metrics init cfg st metrics = inr st'.
Proof.
  intros Hne Hin H.
  apply list_elem_of_split in Hin as (l1 & l2 & ->).
  assert (m :: l1 ++ m :: l2 ≡ₚ l1 ++ m :: m :: l2) as Hperm
    by apply Permutation_middle.
  apply (for_metrics_perm _ _ _ _ Hperm) in H.
  rewrite for_metrics_app in H |- *.
  destruct (for_metrics init cfg st l1) as [e|sa]; [discriminate|].
  cbn in H |- *.
  destruct (loop_body init cfg sa m) as [e|sb] eqn:Hb; [discriminate|].
  by rewrite (loop_body_again _ _ _ _ _ Hne Hb) in H.
Qed.

Lemma for_metrics_repeated_name_witness :
  for_metrics sample_init sample_config (initial_registry hello_target) ["latency"; "qa"]
  = for_metrics sample_init sample_config (initial_registry hello_target) ["qa"; "latency"; "qa"].
Proof.
  exact (for_metrics_repeated_name sample_init sample_config (initial_registry hello_target) _
           "qa" ["latency"; "qa"] ltac:(discriminate) ltac:(compute_done) eq_refl).
Defined.
